(** * Short-term memory provider (mem_local_short.py)

    A shallow embedding of
    [core/providers/memory/mem_local_short/mem_local_short.py]:
    the JSON fence extraction, the YAML-backed store, the state of a
    [MemoryProvider] and its methods [load_memory], [init_memory],
    [save_memory_to_file], [save_memory] and [query_memory].

    Conventions.
    - A Python [str] is a [string] (its UTF-8 bytes).  The patterns the
      code searches for are ASCII, so byte offsets and code-point offsets
      select the same slices.
    - A Python value that is either [None] or a [str] is an [option string].
    - The YAML document is the mapping it denotes ([gmap]); dumping and
      loading it are taken to be faithful.
    - Effects (attributes of [self], the file, the remote save API, the
      LLM, the logger) are threaded through a state monad.
    - Line 176 of the source ([msgStr += f"Current Time: ..."]) is indented
      to the level of the class body.  By the block rules of Python the
      body of [save_memory] therefore ends after line 175, and lines
      178-202, indented under no block opener, make the file invalid.
      [save_memory] is embedded as its body stands (lines 150-175). *)

From Stdlib Require Import ZArith String Ascii List Lia QArith DecimalString.
From stdpp Require Import gmap strings.

Open Scope Z_scope.

(** ** Python strings *)

Module PyStr.

(** The line feed of ["\n"]. *)
Definition LF : string := String (ascii_of_nat 10) EmptyString.

(** The double quote, for building JSON texts. *)
Definition DQ : string := String (ascii_of_nat 34) EmptyString.

(** [s.find(sub, start)] for [start >= 0]: the lowest index [>= start]
    at which [sub] occurs in [s], or [-1]. *)
Definition find (s sub : string) (start : Z) : Z :=
  match String.index (Z.to_nat start) sub s with
  | Some i => Z.of_nat i
  | None => -1
  end.

(** [s[i:j]] for [0 <= i] and [0 <= j <= len(s)]; empty when [j <= i]. *)
Definition slice (s : string) (i j : Z) : string :=
  String.substring (Z.to_nat i) (Z.to_nat (j - i)) s.

(** Truthiness of a value that is [None] or a [str]. *)
Definition truthy (v : option string) : bool :=
  match v with
  | Some (String _ _) => true
  | _ => false
  end.

(** [str.join] of the empty separator. *)
Definition concat (l : list string) : string :=
  fold_right String.append EmptyString l.

End PyStr.

(** ** A recogniser for the texts [json.loads] accepts

    The development is parametric in the JSON parser; this recogniser
    instantiates it on concrete inputs.  It follows the grammar of Python's
    [json] decoder: RFC 8259 values, the literals [NaN], [Infinity] and
    [-Infinity], strings without raw control characters, surrounding
    whitespace, and nothing after the value. *)

Module Json.

Definition code (c : ascii) : nat := nat_of_ascii c.

Definition is_ws (c : ascii) : bool :=
  let n := code c in
  ((n =? 32) || (n =? 9) || (n =? 10) || (n =? 13))%nat.

Definition is_digit (c : ascii) : bool :=
  let n := code c in ((48 <=? n) && (n <=? 57))%nat.

Definition is_hex (c : ascii) : bool :=
  let n := code c in
  (((48 <=? n) && (n <=? 57)) || ((65 <=? n) && (n <=? 70))
   || ((97 <=? n) && (n <=? 102)))%nat.

(** The characters allowed after a backslash, [u] apart. *)
Definition is_escape (c : ascii) : bool :=
  let n := code c in
  ((n =? 34) || (n =? 92) || (n =? 47) || (n =? 98) || (n =? 102)
   || (n =? 110) || (n =? 114) || (n =? 116))%nat.

Fixpoint skip_ws (l : list ascii) : list ascii :=
  match l with
  | c :: r => if is_ws c then skip_ws r else l
  | [] => []
  end.

(** The rest of the input after the closing quote of a string whose
    opening quote has been read. *)
Fixpoint string_body (l : list ascii) : option (list ascii) :=
  match l with
  | [] => None
  | c :: r =>
      if (code c =? 34)%nat then Some r
      else if (code c =? 92)%nat then
        match r with
        | e :: r1 =>
            if is_escape e then string_body r1
            else if (code e =? 117)%nat then
              match r1 with
              | h1 :: h2 :: h3 :: h4 :: r2 =>
                  if is_hex h1 && is_hex h2 && is_hex h3 && is_hex h4
                  then string_body r2 else None
              | _ => None
              end
            else None
        | [] => None
        end
      else if (code c <? 32)%nat then None
      else string_body r
  end.

Fixpoint skip_digits (l : list ascii) : list ascii :=
  match l with
  | c :: r => if is_digit c then skip_digits r else l
  | [] => []
  end.

(** One or more digits, or nothing is consumed. *)
Definition digits1 (l : list ascii) : option (list ascii) :=
  match l with
  | c :: r => if is_digit c then Some (skip_digits r) else None
  | [] => None
  end.

(** The optional fraction and exponent after the integer part. *)
Definition frac_exp (l : list ascii) : list ascii :=
  let l1 :=
    match l with
    | c :: r =>
        if (code c =? 46)%nat then
          match digits1 r with Some r' => r' | None => l end
        else l
    | [] => l
    end in
  match l1 with
  | c :: r =>
      if ((code c =? 101) || (code c =? 69))%nat then
        let r1 :=
          match r with
          | s :: r' =>
              if ((code s =? 43) || (code s =? 45))%nat then r' else r
          | [] => r
          end in
        match digits1 r1 with Some r' => r' | None => l1 end
      else l1
  | [] => l1
  end.

(** The integer part [0] or [[1-9][0-9]*], then fraction and exponent. *)
Definition unsigned_number (l : list ascii) : option (list ascii) :=
  match l with
  | c :: r =>
      if (code c =? 48)%nat then Some (frac_exp r)
      else if is_digit c then Some (frac_exp (skip_digits r))
      else None
  | [] => None
  end.

Fixpoint literal (w l : list ascii) : option (list ascii) :=
  match w, l with
  | [], _ => Some l
  | a :: w', b :: l' => if Ascii.eqb a b then literal w' l' else None
  | _ :: _, [] => None
  end.

Definition word (s : string) : list ascii := list_ascii_of_string s.

Inductive mode := Value | Members | Elements.

(** [parse fuel m l]: the input left after one value ([Value]), after
    the members of an object up to its closing brace ([Members], the
    opening brace read), or after the elements of an array up to its
    closing bracket ([Elements]). *)
Fixpoint parse (fuel : nat) (m : mode) (l : list ascii) : option (list ascii) :=
  match fuel with
  | O => None
  | S f =>
      match m with
      | Value =>
          match l with
          | [] => None
          | c :: r =>
              let n := code c in
              if (n =? 34)%nat then string_body r
              else if (n =? 123)%nat then
                match skip_ws r with
                | d :: r' =>
                    if (code d =? 125)%nat then Some r'
                    else parse f Members (d :: r')
                | [] => None
                end
              else if (n =? 91)%nat then
                match skip_ws r with
                | d :: r' =>
                    if (code d =? 93)%nat then Some r'
                    else parse f Elements (d :: r')
                | [] => None
                end
              else if (n =? 110)%nat then literal (word "ull") r
              else if (n =? 116)%nat then literal (word "rue") r
              else if (n =? 102)%nat then literal (word "alse") r
              else if (n =? 78)%nat then literal (word "aN") r
              else if (n =? 73)%nat then literal (word "nfinity") r
              else if (n =? 45)%nat then
                match literal (word "Infinity") r with
                | Some r' => Some r'
                | None => unsigned_number r
                end
              else unsigned_number l
          end
      | Members =>
          match l with
          | q :: r =>
              if (code q =? 34)%nat then
                match string_body r with
                | Some r1 =>
                    match skip_ws r1 with
                    | c :: r2 =>
                        if (code c =? 58)%nat then
                          match parse f Value (skip_ws r2) with
                          | Some r3 =>
                              match skip_ws r3 with
                              | d :: r4 =>
                                  if (code d =? 125)%nat then Some r4
                                  else if (code d =? 44)%nat
                                  then parse f Members (skip_ws r4)
                                  else None
                              | [] => None
                              end
                          | None => None
                          end
                        else None
                    | [] => None
                    end
                | None => None
                end
              else None
          | [] => None
          end
      | Elements =>
          match parse f Value l with
          | Some r1 =>
              match skip_ws r1 with
              | d :: r2 =>
                  if (code d =? 93)%nat then Some r2
                  else if (code d =? 44)%nat
                  then parse f Elements (skip_ws r2)
                  else None
              | [] => None
              end
          | None => None
          end
      end
  end.

(** Whether [json.loads s] returns rather than raises. *)
Definition loads_ok (s : string) : bool :=
  let l := list_ascii_of_string s in
  match parse (2 * List.length l + 2) Value (skip_ws l) with
  | Some r => match skip_ws r with [] => true | _ :: _ => false end
  | None => false
  end.

End Json.


(** ** The clock: [time.localtime] and [time.strftime] *)

Module PyTime.

(** The fields of [time.struct_time] that the format of the source reads. *)
Record struct_time := {
  tm_year : Z;
  tm_mon : Z;
  tm_mday : Z;
  tm_hour : Z;
  tm_min : Z;
  tm_sec : Z
}.

(** The decimal digits of a number that is not negative. *)
Definition decimal (n : Z) : string :=
  NilZero.string_of_uint (N.to_uint (Z.to_N n)).

(** A number of at most two digits, zero-padded to two. *)
Definition pad2 (n : Z) : string :=
  if n <? 10 then String "0" (decimal n) else decimal n.

(** What a conversion character stands for; an unknown one is kept. *)
Definition directive (d : ascii) (t : struct_time) : string :=
  if Ascii.eqb d "Y" then decimal (tm_year t)
  else if Ascii.eqb d "m" then pad2 (tm_mon t)
  else if Ascii.eqb d "d" then pad2 (tm_mday t)
  else if Ascii.eqb d "H" then pad2 (tm_hour t)
  else if Ascii.eqb d "M" then pad2 (tm_min t)
  else if Ascii.eqb d "S" then pad2 (tm_sec t)
  else String "%" (String d EmptyString).

(** [time.strftime(fmt, t)] for the conversions [%Y %m %d %H %M %S]. *)
Fixpoint strftime (fmt : string) (t : struct_time) : string :=
  match fmt with
  | EmptyString => EmptyString
  | String c rest =>
      if Ascii.eqb c "%" then
        match rest with
        | String d rest' => directive d t +:+ strftime rest' t
        | EmptyString => String c EmptyString
        end
      else String c (strftime rest t)
  end.

(** A calendar time as [time.localtime] returns it, with a four-digit year. *)
Definition wf_time (t : struct_time) : Prop :=
  1000 <= tm_year t <= 9999 /\ 1 <= tm_mon t <= 12 /\ 1 <= tm_mday t <= 31
  /\ 0 <= tm_hour t <= 23 /\ 0 <= tm_min t <= 59 /\ 0 <= tm_sec t <= 61.

Definition all_digits (s : string) : bool :=
  forallb Json.is_digit (list_ascii_of_string s).

Definition two_digits (s : string) : bool :=
  match s with
  | String a (String b EmptyString) => Json.is_digit a && Json.is_digit b
  | _ => false
  end.

Definition four_digits (s : string) : bool :=
  match s with
  | String a (String b (String c (String d EmptyString))) =>
      Json.is_digit a && Json.is_digit b && Json.is_digit c && Json.is_digit d
  | _ => false
  end.

(** The shape [YYYY-MM-DD HH:MM:SS]. *)
Definition is_timestamp (s : string) : bool :=
  (String.length s =? 19)%nat
  && all_digits (String.substring 0 4 s)
  && String.eqb (String.substring 4 1 s) "-"
  && all_digits (String.substring 5 2 s)
  && String.eqb (String.substring 7 1 s) "-"
  && all_digits (String.substring 8 2 s)
  && String.eqb (String.substring 10 1 s) " "
  && all_digits (String.substring 11 2 s)
  && String.eqb (String.substring 13 1 s) ":"
  && all_digits (String.substring 14 2 s)
  && String.eqb (String.substring 16 1 s) ":"
  && all_digits (String.substring 17 2 s).

End PyTime.

(** ** Data *)

(** The YAML document: role identifier to memory content.  A key or an
    entry is [None] or a [str]. *)
Abbreviation Store := (gmap (option string) (option string)).

(** A dialogue turn: the attributes [role] and [content] of a message. *)
Record Message := {
  role : string;
  content : string
}.

(** The LLM handle as [save_memory] uses it: the name of its class, the
    attributes [model_name] and [api_key] when it has them, and the
    method [response_no_stream(system_prompt, user_prompt, max_tokens,
    temperature)]. *)
Record LLM := {
  class_name : string;
  model_name : option string;
  api_key : option string;
  response_no_stream : string -> string -> Z -> Q -> string
}.

(** The attributes of a [MemoryProvider] instance.  [memory_path] is the
    one file of [World]. *)
Record MemoryProvider := {
  role_id : option string;
  llm : option LLM;
  short_memory : option string;
  save_to_file : bool
}.

Inductive level := DEBUG | INFO | ERROR.

(** A request received by the LLM. *)
Record Request := {
  system_prompt : string;
  user_prompt : string;
  max_tokens : Z;
  temperature : Q
}.

(** What lies outside the instance: the file at [memory_path] ([None]
    when the path does not exist) and how often it was opened for reading,
    the clock, and the traces of the LLM, of the remote save API, of the
    logger and of standard output, oldest entry first. *)
Record World := {
  file : option Store;
  file_reads : nat;
  localtime : PyTime.struct_time;
  llm_calls : list Request;
  remote_saves : list (option string * string);
  log : list (level * string);
  stdout : list string
}.

Record State := {
  self : MemoryProvider;
  world : World
}.

(** The outcome of [json.loads]: a value, or the exception it raises. *)
Inductive loads_result := Loaded | Raised (e : string).

(** The collaborators imported by the module: [json.loads] and
    [core.utils.util.check_model_key] (a problem description, or nothing
    when the credential looks usable). *)
Class Collaborators := {
  json_loads : string -> loads_result;
  check_model_key : string -> option string -> option string
}.

(** ** The state monad *)

Definition M (A : Type) : Type := State -> A * State.

Definition ret {A} (a : A) : M A := fun st => (a, st).

Definition bind {A B} (m : M A) (k : A -> M B) : M B :=
  fun st => let (a, st') := m st in k a st'.

Notation "x <- m ;; k" := (bind m (fun x => k))
  (at level 100, m at next level, right associativity).
Notation "m ;;; k" := (bind m (fun _ => k))
  (at level 100, right associativity).

Definition get_self : M MemoryProvider := fun st => (self st, st).

Definition put_self (p : MemoryProvider) : M unit :=
  fun st => (tt, {| self := p; world := world st |}).

Definition get_world : M World := fun st => (world st, st).

Definition put_world (w : World) : M unit :=
  fun st => (tt, {| self := self st; world := w |}).

(** Attribute assignments. *)
Definition set_role_id (r : option string) : M unit :=
  p <- get_self ;;
  put_self {| role_id := r; llm := llm p;
              short_memory := short_memory p; save_to_file := save_to_file p |}.

Definition set_llm (l : option LLM) : M unit :=
  p <- get_self ;;
  put_self {| role_id := role_id p; llm := l;
              short_memory := short_memory p; save_to_file := save_to_file p |}.

Definition set_short_memory (v : option string) : M unit :=
  p <- get_self ;;
  put_self {| role_id := role_id p; llm := llm p;
              short_memory := v; save_to_file := save_to_file p |}.

Definition set_save_to_file (b : bool) : M unit :=
  p <- get_self ;;
  put_self {| role_id := role_id p; llm := llm p;
              short_memory := short_memory p; save_to_file := b |}.

(** [logger.bind(tag=TAG).<level>(msg)]. *)
Definition logger (lv : level) (msg : string) : M unit :=
  w <- get_world ;;
  put_world {| file := file w; file_reads := file_reads w;
               localtime := localtime w; llm_calls := llm_calls w;
               remote_saves := remote_saves w;
               log := log w ++ [(lv, msg)]; stdout := stdout w |}.

(** [print("Error:", e)]. *)
Definition print_error (e : string) : M unit :=
  w <- get_world ;;
  put_world {| file := file w; file_reads := file_reads w;
               localtime := localtime w; llm_calls := llm_calls w;
               remote_saves := remote_saves w; log := log w;
               stdout := stdout w ++ ["Error: " +:+ e] |}.

(** [os.path.exists(self.memory_path)]. *)
Definition path_exists : M bool :=
  w <- get_world ;;
  ret (match file w with Some _ => true | None => false end).

(** [yaml.safe_load(f) or {}] on the file opened for reading. *)
Definition yaml_safe_load : M Store :=
  w <- get_world ;;
  put_world {| file := file w; file_reads := S (file_reads w);
               localtime := localtime w; llm_calls := llm_calls w;
               remote_saves := remote_saves w; log := log w;
               stdout := stdout w |} ;;;
  ret (match file w with Some d => d | None => ∅ end).

(** [yaml.dump(all_memory, f, allow_unicode=True)] on the file opened for
    writing. *)
Definition yaml_dump (d : Store) : M unit :=
  w <- get_world ;;
  put_world {| file := Some d; file_reads := file_reads w;
               localtime := localtime w; llm_calls := llm_calls w;
               remote_saves := remote_saves w; log := log w;
               stdout := stdout w |}.

(** [time.localtime()]. *)
Definition time_localtime : M PyTime.struct_time :=
  w <- get_world ;; ret (localtime w).

(** [l.response_no_stream(system, user, max_tokens=.., temperature=..)],
    as lines 179 and 193 call it; those lines lie outside the body of
    [save_memory]. *)
Definition call_llm (l : LLM) (sys usr : string) (mt : Z) (temp : Q) : M string :=
  w <- get_world ;;
  put_world {| file := file w; file_reads := file_reads w;
               localtime := localtime w;
               llm_calls := llm_calls w ++
                 [{| system_prompt := sys; user_prompt := usr;
                     max_tokens := mt; temperature := temp |}];
               remote_saves := remote_saves w; log := log w;
               stdout := stdout w |} ;;;
  ret (response_no_stream l sys usr mt temp).

(** [config.manage_api_client.save_mem_local_short(role_id, text)], as
    line 199 calls it, outside the body of [save_memory]. *)
Definition save_mem_local_short (r : option string) (text : string) : M unit :=
  w <- get_world ;;
  put_world {| file := file w; file_reads := file_reads w;
               localtime := localtime w; llm_calls := llm_calls w;
               remote_saves := remote_saves w ++ [(r, text)];
               log := log w; stdout := stdout w |}.

(** ** The module [mem_local_short] *)

(** The system prompt of structured mode (lines 11-78). *)
Definition short_term_memory_prompt : string :=
  "
# Temporal Memory Weaver

## Core Mission
Maintain an evolving compact memory graph. Preserve only user-relevant, actionable, identity / preference / long‑term contextual information from the dialogue while tracking changes over time.

## Memory Principles
### 1. Three-Dimension Scoring (apply every update)
| Dimension        | Criterion (Guideline)                     | Weight |
|------------------|-------------------------------------------|--------|
| Recency          | Freshness (recent dialogue turns)         | 40%    |
| Emotional Intensity | Strong affect / repeated emphasis (💖) | 35%    |
| Connectivity     | Links to other retained facts             | 25%    |

### 2. Dynamic Update Examples
Name change handling example:
Original: " +:+ PyStr.DQ +:+
  "曾用名" +:+ PyStr.DQ +:+
  ": [" +:+ PyStr.DQ +:+
  "张三" +:+ PyStr.DQ +:+
  "], " +:+ PyStr.DQ +:+
  "现用名" +:+ PyStr.DQ +:+
  ": " +:+ PyStr.DQ +:+
  "张三丰" +:+ PyStr.DQ +:+
  "
When detecting patterns like " +:+ PyStr.DQ +:+
  "My name is X" +:+ PyStr.DQ +:+
  " / " +:+ PyStr.DQ +:+
  "Call me Y" +:+ PyStr.DQ +:+
  ":
1. Move old name into list " +:+ PyStr.DQ +:+
  "曾用名" +:+ PyStr.DQ +:+
  " (former names)
2. Append a timeline marker: " +:+ PyStr.DQ +:+
  "2024-02-15 14:32: 启用张三丰" +:+ PyStr.DQ +:+
  "
3. Add an evolution note into memory cube describing the identity shift.

### 3. Space Optimization
- Compression: Use compact symbolic annotations (e.g. ✅ " +:+ PyStr.DQ +:+
  "Alex[NY/Backend/🐱]" +:+ PyStr.DQ +:+
  " ❌ " +:+ PyStr.DQ +:+
  "Alex lives in New York, is a backend engineer and owns a cat" +:+ PyStr.DQ +:+
  ")
- Pruning Trigger: If total characters ≥ 900:
    1. Remove entries with weighted score < 60 and not referenced in last 3 turns.
    2. Merge near-duplicate items (keep the most recent timestamp).

## Output Structure
Return ONLY a valid JSON string (no explanations, no markdown code fences unless strictly needed). Extract info ONLY from the conversation; do NOT include fictitious examples. Keep field names EXACTLY as shown (Chinese keys retained for backward compatibility) but generate all textual content (values) in English.
```json
{
    " +:+ PyStr.DQ +:+
  "时空档案" +:+ PyStr.DQ +:+
  ": {
        " +:+ PyStr.DQ +:+
  "身份图谱" +:+ PyStr.DQ +:+
  ": {
            " +:+ PyStr.DQ +:+
  "现用名" +:+ PyStr.DQ +:+
  ": " +:+ PyStr.DQ +:+
  EmptyString +:+ PyStr.DQ +:+
  ",
            " +:+ PyStr.DQ +:+
  "特征标记" +:+ PyStr.DQ +:+
  ": []
        },
        " +:+ PyStr.DQ +:+
  "记忆立方" +:+ PyStr.DQ +:+
  ": [
            {
                " +:+ PyStr.DQ +:+
  "事件" +:+ PyStr.DQ +:+
  ": " +:+ PyStr.DQ +:+
  "Joined a new company" +:+ PyStr.DQ +:+
  ",
                " +:+ PyStr.DQ +:+
  "时间戳" +:+ PyStr.DQ +:+
  ": " +:+ PyStr.DQ +:+
  "2024-03-20" +:+ PyStr.DQ +:+
  ",
                " +:+ PyStr.DQ +:+
  "情感值" +:+ PyStr.DQ +:+
  ": 0.9,
                " +:+ PyStr.DQ +:+
  "关联项" +:+ PyStr.DQ +:+
  ": [" +:+ PyStr.DQ +:+
  "afternoon tea" +:+ PyStr.DQ +:+
  "],
                " +:+ PyStr.DQ +:+
  "保鲜期" +:+ PyStr.DQ +:+
  ": 30
            }
        ]
    },
    " +:+ PyStr.DQ +:+
  "关系网络" +:+ PyStr.DQ +:+
  ": {
        " +:+ PyStr.DQ +:+
  "高频话题" +:+ PyStr.DQ +:+
  ": {" +:+ PyStr.DQ +:+
  "career" +:+ PyStr.DQ +:+
  ": 12},
        " +:+ PyStr.DQ +:+
  "暗线联系" +:+ PyStr.DQ +:+
  ": [" +:+ PyStr.DQ +:+
  EmptyString +:+ PyStr.DQ +:+
  "]
    },
    " +:+ PyStr.DQ +:+
  "待响应" +:+ PyStr.DQ +:+
  ": {
        " +:+ PyStr.DQ +:+
  "紧急事项" +:+ PyStr.DQ +:+
  ": [" +:+ PyStr.DQ +:+
  "Immediate tasks" +:+ PyStr.DQ +:+
  "],
        " +:+ PyStr.DQ +:+
  "潜在关怀" +:+ PyStr.DQ +:+
  ": [" +:+ PyStr.DQ +:+
  "Potential proactive support" +:+ PyStr.DQ +:+
  "]
    },
    " +:+ PyStr.DQ +:+
  "高光语录" +:+ PyStr.DQ +:+
  ": [
        " +:+ PyStr.DQ +:+
  "A directly quoted emotionally strong user moment" +:+ PyStr.DQ +:+
  "
    ]
}
```

### Additional Constraints
1. Use English for all content values.
2. Do NOT fabricate facts; only include what is grounded in dialogue.
3. Keep emotional / preference / identity / plans / concerns; ignore device control, weather, trivial filler, or ephemeral system status.
4. If no meaningful new information appears, you may return the previous memory unchanged.
5. Total JSON (string length) should remain concise (target < 1800 Chinese characters equivalent; optimize but do not lose key facts).
".

(** The system prompt of content-only mode (lines 80-90). *)
Definition short_term_memory_prompt_only_content : string :=
  "
You are an experienced dialogue memory summarizer. Produce an updated SHORT memory (English only) following these rules:
1. Extract only stable user-centric facts: identity, preferences, routines, goals, concerns, emotional signals.
2. Do NOT repeat or discard prior memory unless the accumulated memory would exceed about 1800 characters; preserve earlier facts unless clearly obsolete.
3. Exclude: device volume changes, media playback commands, weather reports, exit/stop phrases, refusal to chat, transient control interactions.
4. Exclude ephemeral data like today's timestamp or current weather unless the user ties them to a personal plan or event.
5. Exclude execution success/failure of device actions and meaningless filler phrases.
6. If the latest conversation adds nothing meaningful, simply return the previous historical memory unchanged.
7. Output ONLY the updated memory text (no JSON required in this mode), within ~1800 characters.
8. No code, XML, or commentary—pure factual English summary.
".

Section Methods.

Context {env : Collaborators}.

(** [extract_json_data(json_code)]: the text between the first
    [```json] and the next [```] when both are found; otherwise the whole
    text when it parses as JSON, and the empty string when it does not. *)
Definition extract_json_data (json_code : string) : M string :=
  let start := PyStr.find json_code "```json" 0 in
  let end_ := PyStr.find json_code "```" (start + 1) in
  if (start =? -1) || (end_ =? -1) then
    match json_loads json_code with
    | Loaded => ret json_code
    | Raised e => print_error e ;;; ret EmptyString
    end
  else ret (PyStr.slice json_code (start + 7) end_).

(** Modelled from the spec: the base class [MemoryProviderBase] of the
    module [..base] is not among the sources.  Its constructor leaves the
    role identifier and the LLM handle unbound. *)
Definition base_init : M unit :=
  set_role_id None ;;; set_llm None.

(** Modelled from the spec: [MemoryProviderBase.init_memory], not among the
    sources, binds the role identifier and the LLM handle. *)
Definition base_init_memory (r : option string) (l : option LLM) : M unit :=
  set_role_id r ;;; set_llm l.

(** The whole document at [memory_path], or [{}] when the path does not
    exist (lines 133-136 and 141-144). *)
Definition read_all_memory : M Store :=
  ex <- path_exists ;;
  if ex then yaml_safe_load else ret ∅.

(** [MemoryProvider.load_memory(summary_memory)]. *)
Definition load_memory (summary_memory : option string) : M unit :=
  p <- get_self ;;
  if PyStr.truthy summary_memory || negb (save_to_file p) then
    set_short_memory summary_memory
  else
    all_memory <- read_all_memory ;;
    match all_memory !! role_id p with
    | Some v => set_short_memory v
    | None => ret tt
    end.

(** [MemoryProvider.__init__(config, summary_memory)]. *)
Definition __init__ (summary_memory : option string) : M unit :=
  base_init ;;;
  set_short_memory (Some EmptyString) ;;;
  set_save_to_file true ;;;
  load_memory summary_memory.

(** [MemoryProvider.init_memory(role_id, llm, summary_memory, save_to_file)]. *)
Definition init_memory (r : option string) (l : option LLM)
    (summary_memory : option string) (to_file : bool) : M unit :=
  base_init_memory r l ;;;
  set_save_to_file to_file ;;;
  load_memory summary_memory.

(** [MemoryProvider.save_memory_to_file()]. *)
Definition save_memory_to_file : M unit :=
  all_memory <- read_all_memory ;;
  p <- get_self ;;
  yaml_dump (<[role_id p := short_memory p]> all_memory).

(** [str(v)] of a value that is [None] or a [str]. *)
Definition py_str (v : option string) : string :=
  match v with Some s => s | None => "None" end.

(** One iteration of the loop over [msgs] (lines 165-169). *)
Definition add_turn (msgStr : string) (msg : Message) : string :=
  if String.eqb (role msg) "user" then
    msgStr +:+ ("User: " +:+ content msg +:+ PyStr.LF)
  else if String.eqb (role msg) "assistant" then
    msgStr +:+ ("Assistant: " +:+ content msg +:+ PyStr.LF)
  else msgStr.

(** [self.short_memory and len(self.short_memory) > 0]. *)
Definition has_history (v : option string) : bool :=
  PyStr.truthy v
  && match v with
     | Some m => 0 <? Z.of_nat (String.length m)
     | None => false
     end.

(** Lines 164-172: the dialogue and the history block of the user prompt. *)
Definition build_msgStr (msgs : list Message) (memory : option string) : string :=
  let msgStr := fold_left add_turn msgs EmptyString in
  if has_history memory then
    (msgStr +:+ ("History Memory:" +:+ PyStr.LF)) +:+ py_str memory
  else msgStr.

(** [MemoryProvider.save_memory(msgs)], lines 149-175.  Line 176 is
    indented to the level of the class body, which ends the body of the
    method after line 175: a call that passes the two early returns
    builds [msgStr], reads the clock, and falls off the end of the body,
    so its result is [None].  Lines 178-202 are indented under no
    statement that opens a block, where Python rejects the file
    (unexpected indent); they belong to no method and are not embedded. *)
Definition save_memory (msgs : list Message) : M (option string) :=
  p <- get_self ;;
  let model_info :=
    match llm p with
    | Some l =>
        match model_name l with Some n => n | None => class_name l end
    | None => "NoneType"
    end in
  logger DEBUG ("使用记忆保存模型: " +:+ model_info) ;;;
  let key := match llm p with Some l => api_key l | None => None end in
  let memory_key_msg := check_model_key "记忆总结专用LLM" key in
  (if PyStr.truthy memory_key_msg
   then logger ERROR (py_str memory_key_msg) else ret tt) ;;;
  match llm p with
  | None =>
      logger ERROR "LLM is not set for memory provider" ;;; ret None
  | Some l =>
      if Z.of_nat (length msgs) <? 2 then ret None
      else
        let msgStr := build_msgStr msgs (short_memory p) in
        now <- time_localtime ;;
        let time_str := PyTime.strftime "%Y-%m-%d %H:%M:%S" now in
        ret None
  end.

(** [MemoryProvider.query_memory(query)]. *)
Definition query_memory (query : string) : M (option string) :=
  p <- get_self ;;
  ret (short_memory p).

(** *** Names for the parts of [extract_json_data] *)

(** The index of [```json], or [-1]. *)
Definition fence_start (json_code : string) : Z :=
  PyStr.find json_code "```json" 0.

(** The index of the next [```], or [-1]. *)
Definition fence_end (json_code : string) : Z :=
  PyStr.find json_code "```" (fence_start json_code + 1).

(** Whether both delimiters were found. *)
Definition fenced (json_code : string) : bool :=
  negb ((fence_start json_code =? -1) || (fence_end json_code =? -1)).

(** The text between the delimiters. *)
Definition fence_body (json_code : string) : string :=
  PyStr.slice json_code (fence_start json_code + 7) (fence_end json_code).

(** Whether a turn is one the loop of [save_memory] writes a line for. *)
Definition is_dialogue (msg : Message) : bool :=
  String.eqb (role msg) "user" || String.eqb (role msg) "assistant".

(** The line of a dialogue turn. *)
Definition turn_line (msg : Message) : string :=
  (if String.eqb (role msg) "user" then "User: " else "Assistant: ")
  +:+ content msg +:+ PyStr.LF.

(** The history block: the label and the cached memory, when there is a
    cached memory that is not empty. *)
Definition history_block (memory : option string) : string :=
  match memory with
  | Some (String c m) => "History Memory:" +:+ PyStr.LF +:+ String c m
  | _ => EmptyString
  end.

(** The document a reader of the file sees: [{}] when there is no file. *)
Definition document (w : World) : Store :=
  match file w with Some d => d | None => ∅ end.

(** *** Names for the log and the store *)

(** The name of the model in the first log entry (line 151). *)
Definition model_info (p : MemoryProvider) : string :=
  match llm p with
  | Some l => match model_name l with Some n => n | None => class_name l end
  | None => "NoneType"
  end.

(** What the credential check adds to the log (lines 153-156). *)
Definition credential_log (p : MemoryProvider) : list (level * string) :=
  let key := match llm p with Some l => api_key l | None => None end in
  let memory_key_msg := check_model_key "记忆总结专用LLM" key in
  if PyStr.truthy memory_key_msg
  then [(ERROR, py_str memory_key_msg)] else [].

(** The log entries of the first lines of [save_memory] (150-156). *)
Definition opening_log (p : MemoryProvider) : list (level * string) :=
  (DEBUG, "使用记忆保存模型: " +:+ model_info p) :: credential_log p.

(** The cache and the entry of the role in the document agree. *)
Definition in_step (st : State) : Prop :=
  document (world st) !! role_id (self st) = Some (short_memory (self st)).

End Methods.

Arguments PyStr.find : simpl never.
Arguments PyStr.slice : simpl never.
Arguments PyTime.strftime : simpl never.
Arguments build_msgStr : simpl never.
Arguments String.append : simpl never.

(** ** Concrete collaborators and states

    Used to run the methods on explicit inputs. *)

Module Sample.

(** Whether [sub] occurs in [s]. *)
Definition occurs (sub s : string) : bool :=
  match String.index 0 sub s with Some _ => true | None => false end.

(** A credential check that reports a key still holding the placeholder
    text of the configuration template. *)
Definition check_key (label : string) (key : option string) : option string :=
  match key with
  | Some k =>
      if occurs "你" k
      then Some ("配置错误: " +:+ label +:+ " 的 API key 未设置,当前值为: " +:+ k)
      else None
  | None => None
  end.

Definition env : Collaborators := {|
  json_loads s :=
    if Json.loads_ok s then Loaded else Raised "Expecting value";
  check_model_key := check_key
|}.

(** An LLM that answers every request with [answer]. *)
Definition llm_answering (key : option string) (answer : string) : LLM := {|
  class_name := "LLMProvider";
  model_name := Some "demo-model";
  api_key := key;
  response_no_stream := fun _ _ _ _ => answer
|}.

Definition noon : PyTime.struct_time := {|
  PyTime.tm_year := 2024; PyTime.tm_mon := 3; PyTime.tm_mday := 20;
  PyTime.tm_hour := 12; PyTime.tm_min := 5; PyTime.tm_sec := 9
|}.

(** A world whose file holds [doc]. *)
Definition world_with (doc : option Store) : World := {|
  file := doc; file_reads := 0; localtime := noon; llm_calls := [];
  remote_saves := []; log := []; stdout := []
|}.

Definition provider (r : option string) (l : option LLM)
    (memory : option string) (to_file : bool) : MemoryProvider := {|
  role_id := r; llm := l; short_memory := memory; save_to_file := to_file
|}.

Definition state (p : MemoryProvider)
    (doc : option Store) : State :=
  {| self := p; world := world_with doc |}.

Definition user_says (text : string) : Message :=
  {| role := "user"; content := text |}.

Definition assistant_says (text : string) : Message :=
  {| role := "assistant"; content := text |}.

Definition system_says (text : string) : Message :=
  {| role := "system"; content := text |}.

(** A JSON text: an object with one member. *)
Definition json_doc : string :=
  "{" +:+ PyStr.DQ +:+ "name" +:+ PyStr.DQ +:+ ": "
      +:+ PyStr.DQ +:+ "Alex" +:+ PyStr.DQ +:+ "}".

(** A JSON text, a string, that holds both fence delimiters. *)
Definition json_with_fence : string :=
  PyStr.DQ +:+ "```json x```" +:+ PyStr.DQ.

(** A document with the memories of two roles. *)
Definition two_roles : Store :=
  <[Some "A" := Some "memory of A"]> (<[Some "B" := Some "memory of B"]> ∅).

(** A document with the memory of role [A] only. *)
Definition one_role : Store :=
  <[Some "A" := Some "memory of A"]> ∅.

(** A transcript of two dialogue turns. *)
Definition greeting : list Message :=
  [user_says "hi"; assistant_says "hello"].

(** A transcript without any dialogue turn. *)
Definition silent : list Message :=
  [system_says "be brief"; system_says "be kind"].

(** An instance for role [A] in structured mode, with cached memory
    [old], next to a file with the memories of two roles; its LLM
    answers [answer]. *)
Definition structured (answer : string) : State :=
  state (provider (Some "A") (Some (llm_answering (Some "sk-1") answer))
           (Some "old") true)
        (Some two_roles).

(** The same instance in content-only mode. *)
Definition content_only (answer : string) : State :=
  state (provider (Some "A") (Some (llm_answering (Some "sk-1") answer))
           (Some "old") false)
        (Some two_roles).

(** An answer with a fenced JSON block. *)
Definition fenced_answer : string :=
  "Here: ```json" +:+ json_doc +:+ "```".

(** A key that still holds the placeholder text, and what the check
    says about it. *)
Definition placeholder_key : string := "你的api key".

Definition placeholder_problem : string :=
  "配置错误: 记忆总结专用LLM 的 API key 未设置,当前值为: 你的api key".

(** Construction, then initialisation for role [A] with supplied content,
    next to a file that knows role [A] only. *)
Definition initialised_for_A : State :=
  snd ((__init__ None ;;;
        init_memory (Some "A")
          (Some (llm_answering (Some "sk-1") json_doc))
          (Some "supplied memory of A") true)
         (state (provider None None None true) (Some one_role))).

(** The structured instance with no LLM bound. *)
Definition unbound : State :=
  state (provider (Some "A") None (Some "old") true) (Some two_roles).

(** The structured instance whose LLM handle carries the placeholder
    key. *)
Definition misconfigured (answer : string) : State :=
  state (provider (Some "A")
           (Some (llm_answering (Some placeholder_key) answer))
           (Some "old") true)
        (Some two_roles).

End Sample.

(** ** Properties *)

Section Properties.

Context {env : Collaborators}.

Ltac unfold_monad :=
  unfold save_memory, save_memory_to_file, init_memory, __init__,
    load_memory, read_all_memory, query_memory,
    base_init, base_init_memory,
    call_llm, save_mem_local_short, time_localtime, yaml_dump,
    yaml_safe_load, path_exists, print_error, logger,
    set_save_to_file, set_short_memory, set_llm, set_role_id,
    put_world, get_world, put_self, get_self, bind, ret.

(** *** Strings and the time stamp *)

Lemma append_assoc (a b c : string) : (a +:+ b) +:+ c = a +:+ b +:+ c.
Proof.
  induction a as [|x a IH]; [reflexivity|].
  change (String x ((a +:+ b) +:+ c) = String x (a +:+ b +:+ c)).
  now rewrite IH.
Qed.

Lemma append_empty_r (a : string) : a +:+ EmptyString = a.
Proof.
  induction a as [|x a IH]; [reflexivity|].
  change (String x (a +:+ EmptyString) = String x a). now rewrite IH.
Qed.

Lemma decimal_year (y : Z) :
  1000 <= y <= 9999 -> PyTime.four_digits (PyTime.decimal y) = true.
Proof.
  intros Hy.
  assert (Hall : forallb (fun n => PyTime.four_digits (PyTime.decimal (Z.of_nat n)))
                   (seq (Z.to_nat 1000) (Z.to_nat 9000)) = true)
    by (vm_compute; reflexivity).
  rewrite forallb_forall in Hall.
  specialize (Hall (Z.to_nat y)). rewrite Z2Nat.id in Hall by lia.
  apply Hall. apply in_seq. lia.
Qed.

Lemma pad2_two_digits (n : Z) :
  0 <= n <= 99 -> PyTime.two_digits (PyTime.pad2 n) = true.
Proof.
  intros Hn.
  assert (Hall : forallb (fun k => PyTime.two_digits (PyTime.pad2 (Z.of_nat k)))
                   (seq 0 100) = true)
    by (vm_compute; reflexivity).
  rewrite forallb_forall in Hall.
  specialize (Hall (Z.to_nat n)). rewrite Z2Nat.id in Hall by lia.
  apply Hall. apply in_seq. lia.
Qed.

(** The format of the source produces [YYYY-MM-DD HH:MM:SS]. *)
Lemma strftime_is_timestamp (t : PyTime.struct_time) :
  PyTime.wf_time t ->
  PyTime.is_timestamp (PyTime.strftime "%Y-%m-%d %H:%M:%S" t) = true.
Proof.
  intros (Hy & Hm & Hd & HH & HM & HS).
  pose proof (decimal_year _ Hy) as Dy.
  pose proof (pad2_two_digits (PyTime.tm_mon t) ltac:(lia)) as Dm.
  pose proof (pad2_two_digits (PyTime.tm_mday t) ltac:(lia)) as Dd.
  pose proof (pad2_two_digits (PyTime.tm_hour t) ltac:(lia)) as DH.
  pose proof (pad2_two_digits (PyTime.tm_min t) ltac:(lia)) as DM.
  pose proof (pad2_two_digits (PyTime.tm_sec t) ltac:(lia)) as DS.
  change (PyTime.strftime "%Y-%m-%d %H:%M:%S" t) with
    (PyTime.decimal (PyTime.tm_year t) +:+ String "-"
       (PyTime.pad2 (PyTime.tm_mon t) +:+ String "-"
          (PyTime.pad2 (PyTime.tm_mday t) +:+ String " "
             (PyTime.pad2 (PyTime.tm_hour t) +:+ String ":"
                (PyTime.pad2 (PyTime.tm_min t) +:+ String ":"
                   (PyTime.pad2 (PyTime.tm_sec t) +:+ EmptyString)))))).
  unfold PyTime.four_digits, PyTime.two_digits in *.
  destruct (PyTime.decimal _) as [|y1 [|y2 [|y3 [|y4 [|? ?]]]]]; try discriminate.
  destruct (PyTime.pad2 (PyTime.tm_mon t)) as [|m1 [|m2 [|? ?]]]; try discriminate.
  destruct (PyTime.pad2 (PyTime.tm_mday t)) as [|d1 [|d2 [|? ?]]]; try discriminate.
  destruct (PyTime.pad2 (PyTime.tm_hour t)) as [|h1 [|h2 [|? ?]]]; try discriminate.
  destruct (PyTime.pad2 (PyTime.tm_min t)) as [|i1 [|i2 [|? ?]]]; try discriminate.
  destruct (PyTime.pad2 (PyTime.tm_sec t)) as [|s1 [|s2 [|? ?]]]; try discriminate.
  repeat match goal with
         | H : _ && _ = true |- _ => apply andb_prop in H; destruct H
         end.
  cbv -[Json.is_digit].
  repeat match goal with
         | H : Json.is_digit _ = true |- _ => rewrite H; clear H
         end.
  reflexivity.
Qed.

(** *** The dialogue text *)

Lemma filter_idempotent {A} (f : A -> bool) (xs : list A) :
  List.filter f (List.filter f xs) = List.filter f xs.
Proof.
  induction xs as [|x xs IH]; [reflexivity|].
  cbn [List.filter]. destruct (f x) eqn:E; [|exact IH].
  cbn [List.filter]. now rewrite E, IH.
Qed.

(** A dialogue turn adds its line; any other turn adds nothing. *)
Lemma add_turn_dialogue (acc : string) (m : Message) :
  add_turn acc m = if is_dialogue m then acc +:+ turn_line m else acc.
Proof.
  unfold add_turn, is_dialogue, turn_line.
  destruct (String.eqb (role m) "user"); [reflexivity|].
  destruct (String.eqb (role m) "assistant"); reflexivity.
Qed.

(** The loop over the turns appends the lines of the dialogue turns. *)
Lemma fold_add_turn (msgs : list Message) (acc : string) :
  fold_left add_turn msgs acc =
  acc +:+ PyStr.concat (map turn_line (List.filter is_dialogue msgs)).
Proof.
  revert acc. induction msgs as [|m msgs IH]; intros acc.
  - cbn. now rewrite append_empty_r.
  - cbn [fold_left List.filter]. rewrite IH, add_turn_dialogue.
    destruct (is_dialogue m); [|reflexivity].
    cbn [map PyStr.concat fold_right]. now rewrite append_assoc.
Qed.

(** *** The fence *)

(** [String.index] searches from its start index on. *)
Lemma index_from (sub s : string) (n m : nat) :
  String.index n sub s = Some m -> (n <= m)%nat.
Proof.
  revert n m. induction s as [|c s IH]; intros n m; destruct n; simpl.
  - intros _. lia.
  - discriminate.
  - intros _. lia.
  - destruct (String.index n sub s) as [k|] eqn:E; [|discriminate].
    intros H. inversion H; subst. apply IH in E. lia.
Qed.

(** X20: when both delimiters are found, the closing one lies after the
    whole opening one: the slice of [extract_json_data] has indices that
    are not negative and in order. *)
Lemma fenced_bounds (json_code : string) :
  fenced json_code = true ->
  0 <= fence_start json_code
  /\ fence_start json_code + 7 <= fence_end json_code.
Proof.
  unfold fenced, fence_end, fence_start, PyStr.find.
  destruct (String.index (Z.to_nat 0) _ json_code) as [a|] eqn:Ea;
    [|discriminate].
  replace (Z.to_nat (Z.of_nat a + 1)) with (S a) by lia.
  destruct (String.index (S a) _ json_code) as [b|] eqn:Eb;
    [|rewrite orb_true_r; discriminate].
  intros _. split; [lia|].
  pose proof (index_from _ _ _ _ Eb) as Hab.
  apply String.index_correct1 in Ea, Eb.
  assert (Hopen : forall p, (p < 7)%nat ->
            String.get (p + a) json_code = String.get p "```json").
  { intros p Hp.
    rewrite <- (String.substring_correct1 json_code a 7 p Hp).
    change 7%nat with (String.length "```json"). now rewrite Ea. }
  assert (Hclose : forall q, (q < 3)%nat ->
            String.get (q + b) json_code = String.get q "```").
  { intros q Hq.
    rewrite <- (String.substring_correct1 json_code b 3 q Hq).
    change 3%nat with (String.length "```"). now rewrite Eb. }
  destruct (le_lt_dec (a + 7) b) as [Hle | Hlt]; [lia|]. exfalso.
  assert (Hk : (b = 1 + a \/ b = 2 + a \/ b = 3 + a
                \/ b = 4 + a \/ b = 5 + a \/ b = 6 + a)%nat) by lia.
  destruct Hk as [-> | [-> | [-> | [-> | [-> | ->]]]]].
  - pose proof (Hopen 3%nat ltac:(lia)) as H1.
    pose proof (Hclose 2%nat ltac:(lia)) as H2.
    replace (2 + (1 + a))%nat with (3 + a)%nat in H2 by lia.
    rewrite H1 in H2. discriminate.
  - pose proof (Hopen 3%nat ltac:(lia)) as H1.
    pose proof (Hclose 1%nat ltac:(lia)) as H2.
    replace (1 + (2 + a))%nat with (3 + a)%nat in H2 by lia.
    rewrite H1 in H2. discriminate.
  - pose proof (Hopen 3%nat ltac:(lia)) as H1.
    pose proof (Hclose 0%nat ltac:(lia)) as H2.
    replace (0 + (3 + a))%nat with (3 + a)%nat in H2 by lia.
    rewrite H1 in H2. discriminate.
  - pose proof (Hopen 4%nat ltac:(lia)) as H1.
    pose proof (Hclose 0%nat ltac:(lia)) as H2.
    replace (0 + (4 + a))%nat with (4 + a)%nat in H2 by lia.
    rewrite H1 in H2. discriminate.
  - pose proof (Hopen 5%nat ltac:(lia)) as H1.
    pose proof (Hclose 0%nat ltac:(lia)) as H2.
    replace (0 + (5 + a))%nat with (5 + a)%nat in H2 by lia.
    rewrite H1 in H2. discriminate.
  - pose proof (Hopen 6%nat ltac:(lia)) as H1.
    pose proof (Hclose 0%nat ltac:(lia)) as H2.
    replace (0 + (6 + a))%nat with (6 + a)%nat in H2 by lia.
    rewrite H1 in H2. discriminate.
Qed.

(** [extract_json_data] in terms of the names of its parts. *)
Lemma extract_json_data_run (json_code : string) (st : State) :
  extract_json_data json_code st =
  if fenced json_code then (fence_body json_code, st)
  else match json_loads json_code with
       | Loaded => (json_code, st)
       | Raised e => (EmptyString, snd (print_error e st))
       end.
Proof.
  unfold extract_json_data, fenced, fence_body, fence_end, fence_start.
  destruct (_ || _); cbn; [|reflexivity].
  destruct (json_loads json_code); reflexivity.
Qed.

(** C9: for every query string, [query_memory] returns the cached memory
    as it is and leaves the whole state (the instance and everything
    outside it) as it was. *)
Theorem query_memory_returns_cache (query : string) (st : State) :
  fst (query_memory query st) = short_memory (self st)
  /\ snd (query_memory query st) = st
  /\ forall other : string, query_memory other st = query_memory query st.
Proof.
  unfold query_memory, bind, ret, get_self. cbn.
  split; [reflexivity|]. split; [reflexivity|].
  intros other. reflexivity.
Qed.


(** C7 (amended): [init_memory] and the constructor load the cache as
    follows.  When non-empty content is supplied, or persistence is not
    file-backed, the cache becomes the supplied value and the file is not
    read.  Otherwise the document is read (the file is opened when it
    exists), an entry for the role is loaded into the cache, and without
    such an entry the cache keeps the value it had.  At construction that
    value is the empty string. *)
Theorem load_memory_cases (st : State) (r : option string) (l : option LLM)
    (summary_memory : option string) (to_file : bool) :
  let st' := snd (init_memory r l summary_memory to_file st) in
  let st0 := snd (__init__ summary_memory st) in
  (PyStr.truthy summary_memory = true \/ to_file = false ->
     short_memory (self st') = summary_memory /\ world st' = world st)
  /\ (PyStr.truthy summary_memory = false -> to_file = true ->
      file_reads (world st') =
        (file_reads (world st)
         + match file (world st) with Some _ => 1 | None => 0 end)%nat
      /\ (forall v, document (world st) !! r = Some v ->
                    short_memory (self st') = v)
      /\ (document (world st) !! r = None ->
          short_memory (self st') = short_memory (self st)))
  /\ (PyStr.truthy summary_memory = true ->
      short_memory (self st0) = summary_memory /\ world st0 = world st)
  /\ (PyStr.truthy summary_memory = false ->
      (forall v, document (world st) !! None = Some v ->
                 short_memory (self st0) = v)
      /\ (document (world st) !! None = None ->
          short_memory (self st0) = Some EmptyString)).
Proof.
  destruct st as [p [f n t c rs lg out]]. unfold document. unfold_monad. cbn.
  split; [|split; [|split]].
  - intros [Ht | Hf].
    + rewrite Ht. cbn. split; reflexivity.
    + rewrite Hf, orb_true_r. cbn. split; reflexivity.
  - intros Ht Hf. rewrite Ht, Hf. cbn.
    destruct f as [d|]; cbn.
    + destruct (d !! r) as [v|] eqn:E; cbn;
        (split; [lia|]; split; [intros v' Hv'; congruence | congruence]).
    + rewrite lookup_empty. cbn.
      split; [lia|]. split; [intros v' Hv'; congruence | reflexivity].
  - intros Ht. rewrite Ht. cbn. split; reflexivity.
  - intros Ht. rewrite Ht. cbn.
    destruct f as [d|]; cbn.
    + destruct (d !! None) as [v|] eqn:E; cbn;
        (split; [intros v' Hv'; congruence | congruence]).
    + rewrite lookup_empty. cbn.
      split; [intros v' Hv'; congruence | reflexivity].
Qed.

(** X9: [save_memory_to_file] leaves the instance alone and writes a
    document (creating the file when the path does not exist) whose keys
    are those read plus the role; the entry of the role is the cached
    memory, and every other entry is as read. *)
Theorem save_memory_to_file_effect (st : State) :
  let st' := snd (save_memory_to_file st) in
  self st' = self st
  /\ is_Some (file (world st'))
  /\ dom (document (world st')) =
       {[role_id (self st)]} ∪ dom (document (world st))
  /\ in_step st'
  /\ (forall k : option string,
        k <> role_id (self st) ->
        document (world st') !! k = document (world st) !! k).
Proof.
  destruct st as [[r ll m sf] [f n t c rs lg out]].
  unfold in_step, document. unfold_monad. cbn.
  destruct f as [d|]; cbn;
    (split; [reflexivity|]; split; [eexists; reflexivity|];
     split; [apply dom_insert_L|]; split; [apply lookup_insert_eq|];
     intros k Hk; apply lookup_insert_ne; congruence).
Qed.

(** X10: writing the store twice in a row leaves the file as writing it
    once does. *)
Theorem save_memory_to_file_idempotent (st : State) :
  let once := snd (save_memory_to_file st) in
  file (world (snd (save_memory_to_file once))) = file (world once).
Proof.
  destruct st as [[r ll m sf] [f n t c rs lg out]].
  unfold_monad. cbn.
  destruct f as [d|]; cbn; now rewrite insert_insert_eq.
Qed.

(** X11: construction and initialisation never write: the file, the
    requests to the LLM, the remote saves, the log and standard output
    are as before; [init_memory] binds the role, the handle and the mode
    it is given, and the constructor leaves the role and the handle
    unbound in structured mode. *)
Theorem initialisation_frame (st : State) (r : option string)
    (l : option LLM) (summary_memory : option string) (to_file : bool) :
  let st' := snd (init_memory r l summary_memory to_file st) in
  let st0 := snd (__init__ summary_memory st) in
  (file (world st') = file (world st)
   /\ llm_calls (world st') = llm_calls (world st)
   /\ remote_saves (world st') = remote_saves (world st)
   /\ log (world st') = log (world st)
   /\ stdout (world st') = stdout (world st)
   /\ role_id (self st') = r /\ llm (self st') = l
   /\ save_to_file (self st') = to_file)
  /\ (file (world st0) = file (world st)
      /\ llm_calls (world st0) = llm_calls (world st)
      /\ remote_saves (world st0) = remote_saves (world st)
      /\ log (world st0) = log (world st)
      /\ stdout (world st0) = stdout (world st)
      /\ role_id (self st0) = None /\ llm (self st0) = None
      /\ save_to_file (self st0) = true).
Proof.
  destruct st as [[r0 ll m sf] [f n t c rs lg out]].
  unfold_monad. cbn.
  split.
  - destruct (PyStr.truthy summary_memory || negb to_file); cbn;
      [repeat split; reflexivity|].
    destruct f as [d|]; cbn;
      (destruct (_ !! r); cbn; repeat split; reflexivity).
  - destruct (PyStr.truthy summary_memory); cbn;
      [repeat split; reflexivity|].
    destruct f as [d|]; cbn;
      (destruct (_ !! None); cbn; repeat split; reflexivity).
Qed.

(** X12: a file-backed initialisation without supplied content that
    finds an entry for the role leaves the cache in step with the file. *)
Theorem init_memory_in_step (st : State) (r : option string)
    (l : option LLM) (summary_memory : option string) :
  PyStr.truthy summary_memory = false ->
  is_Some (document (world st) !! r) ->
  in_step (snd (init_memory r l summary_memory true st)).
Proof.
  destruct st as [[r0 ll m sf] [f n t c rs lg out]].
  unfold in_step, document. cbn. intros Ht [v Hv].
  unfold_monad. cbn. rewrite Ht. cbn.
  destruct f as [d|]; cbn.
  - rewrite Hv. cbn. exact Hv.
  - rewrite lookup_empty in Hv. discriminate.
Qed.

(** X13: initialising twice with the same arguments leaves the instance
    as initialising once does. *)
Theorem init_memory_idempotent (st : State) (r : option string)
    (l : option LLM) (summary_memory : option string) (to_file : bool) :
  let once := snd (init_memory r l summary_memory to_file st) in
  self (snd (init_memory r l summary_memory to_file once)) = self once.
Proof.
  destruct st as [[r0 ll m sf] [f n t c rs lg out]].
  unfold_monad. cbn.
  destruct (PyStr.truthy summary_memory || negb to_file); cbn; [reflexivity|].
  destruct f as [d|]; cbn;
    (destruct (_ !! r) eqn:E; cbn; rewrite ?E; reflexivity).
Qed.

(** X17: when [extract_json_data] finds both delimiters, the text it
    returns holds no [```]: the block ends at the first closing
    delimiter after the opening one. *)
Theorem fence_body_without_fence (json_code : string) :
  fenced json_code = true ->
  PyStr.find (fence_body json_code) "```" 0 = -1.
Proof.
  unfold fenced, fence_body, fence_end, fence_start, PyStr.find, PyStr.slice.
  destruct (String.index (Z.to_nat 0) _ json_code) as [a|] eqn:Ea;
    [|discriminate].
  replace (Z.to_nat (Z.of_nat a + 1)) with (S a) by lia.
  destruct (String.index (S a) _ json_code) as [b|] eqn:Eb;
    [|rewrite orb_true_r; discriminate].
  intros _.
  replace (Z.to_nat (Z.of_nat a + 7)) with (a + 7)%nat by lia.
  replace (Z.to_nat (Z.of_nat b - (Z.of_nat a + 7)))
    with (b - (a + 7))%nat by lia.
  set (body := String.substring (a + 7) (b - (a + 7)) json_code).
  change (Z.to_nat 0) with 0%nat.
  destruct (String.index 0 "```" body) as [q|] eqn:Eq; [exfalso|reflexivity].
  pose proof (String.index_correct1 _ _ _ _ Eq) as Hq.
  change (String.length "```") with 3%nat in Hq.
  pose proof (String.index_correct2 _ _ _ _ Eb) as Hmin.
  assert (Hin : forall n, (n < 3)%nat ->
            (n + q < b - (a + 7))%nat
            /\ String.get (n + (q + (a + 7))) json_code
               = String.get n "```").
  { intros n Hn.
    assert (Hget : String.get (n + q) body = String.get n "```").
    { rewrite <- Hq. symmetry. now apply String.substring_correct1. }
    assert (Hlt : (n + q < b - (a + 7))%nat).
    { destruct (le_lt_dec (b - (a + 7)) (n + q)) as [Hge|]; [|assumption].
      unfold body in Hget.
      rewrite (String.substring_correct2 json_code (a + 7) _ _ Hge) in Hget.
      destruct n as [|[|[|n]]]; try discriminate. lia. }
    split; [exact Hlt|]. rewrite <- Hget. unfold body.
    rewrite (String.substring_correct1 json_code (a + 7) _ _ Hlt).
    f_equal. lia. }
  apply (Hmin (q + (a + 7))%nat).
  - lia.
  - destruct (Hin 0%nat ltac:(lia)) as (H0 & _). lia.
  - change (String.length "```") with 3%nat.
    apply String.get_correct. intros n.
    destruct (le_lt_dec 3 n) as [Hge | Hlt].
    + rewrite (String.substring_correct2 json_code _ _ _ Hge).
      do 3 (destruct n as [|n]; [lia|]). reflexivity.
    + rewrite (String.substring_correct1 json_code _ _ _ Hlt).
      now apply Hin.
Qed.

(** X19: the text of a turn is written into the prompt as it is, with
    no escaping: one user turn whose text holds a line feed followed by
    [Assistant: ] builds the same dialogue and history text as a user
    turn followed by an assistant turn. *)
Theorem turn_text_not_escaped (before after : list Message) (a b : string)
    (memory : option string) :
  build_msgStr
    (before
     ++ {| role := "user";
           content := a +:+ PyStr.LF +:+ "Assistant: " +:+ b |} :: after)
    memory
  = build_msgStr
      (before
       ++ {| role := "user"; content := a |}
       :: {| role := "assistant"; content := b |} :: after)
      memory.
Proof.
  unfold build_msgStr. rewrite !fold_left_app. cbn [fold_left].
  set (acc := fold_left add_turn before EmptyString).
  assert (Hacc :
    add_turn acc
      {| role := "user";
         content := a +:+ PyStr.LF +:+ "Assistant: " +:+ b |}
    = add_turn (add_turn acc {| role := "user"; content := a |})
        {| role := "assistant"; content := b |}).
  { unfold add_turn. cbn. now rewrite !append_assoc. }
  now rewrite Hacc.
Qed.

(** *** [save_memory] as its body stands *)


(** C4: for a transcript of fewer than two turns, [save_memory] returns
    [None], sends no request to the LLM, leaves every attribute of the
    instance (the cached memory among them) as it was, and neither reads
    nor writes the file nor calls the remote save API. *)
Theorem save_memory_few_turns (msgs : list Message) (st : State) :
  (length msgs < 2)%nat ->
  let r := fst (save_memory msgs st) in
  let st' := snd (save_memory msgs st) in
  r = None
  /\ llm_calls (world st') = llm_calls (world st)
  /\ self st' = self st
  /\ short_memory (self st') = short_memory (self st)
  /\ file (world st') = file (world st)
  /\ file_reads (world st') = file_reads (world st)
  /\ remote_saves (world st') = remote_saves (world st).
Proof.
  intros Hlen. destruct st as [p w]. unfold_monad. cbn.
  destruct (PyStr.truthy _); cbn;
    (destruct (llm p) as [l|]; cbn;
     [ destruct (Z.ltb_spec (Z.of_nat (length msgs)) 2); [cbn; tauto | lia]
     | tauto ]).
Qed.


(** *** Further properties *)

(** X1: with no LLM bound, [save_memory] returns [None] for every
    transcript, logs that the LLM is not set (after the opening entries),
    sends no request and changes neither the instance nor the file nor
    the remote store. *)
Theorem save_memory_without_llm (msgs : list Message) (st : State) :
  llm (self st) = None ->
  let st' := snd (save_memory msgs st) in
  fst (save_memory msgs st) = None
  /\ self st' = self st
  /\ llm_calls (world st') = llm_calls (world st)
  /\ file (world st') = file (world st)
  /\ file_reads (world st') = file_reads (world st)
  /\ remote_saves (world st') = remote_saves (world st)
  /\ log (world st') =
       log (world st) ++ opening_log (self st)
       ++ [(ERROR, "LLM is not set for memory provider")].
Proof.
  intros Hllm. destruct st as [[r ll m sf] [f n t c rs lg out]].
  cbn in Hllm. subst ll.
  unfold opening_log, credential_log, model_info.
  unfold_monad. cbn.
  destruct (PyStr.truthy _); cbn;
    (do 6 (split; [reflexivity|]); rewrite <- ?app_assoc; reflexivity).
Qed.

(** X21: when [json.loads] rejects the empty string, the text returned
    by [extract_json_data] is accepted by [json.loads] exactly when the
    answer has both delimiters and the block between them is valid JSON,
    or lacks one of them and is valid JSON as it stands.  The call
    changes nothing but standard output, and not even that when the
    returned text is accepted. *)
Theorem extract_json_data_accepted_iff (json_code : string) (st : State) :
  json_loads EmptyString <> Loaded ->
  let out := extract_json_data json_code st in
  (json_loads (fst out) = Loaded <->
   (fenced json_code = true /\ json_loads (fence_body json_code) = Loaded)
   \/ (fenced json_code = false /\ json_loads json_code = Loaded))
  /\ (json_loads (fst out) = Loaded -> snd out = st)
  /\ self (snd out) = self st
  /\ file (world (snd out)) = file (world st)
  /\ llm_calls (world (snd out)) = llm_calls (world st)
  /\ remote_saves (world (snd out)) = remote_saves (world st)
  /\ log (world (snd out)) = log (world st).
Proof.
  intros Hempty out. unfold out. rewrite extract_json_data_run.
  destruct (fenced json_code) eqn:E; cbn.
  - split; [|repeat split; reflexivity].
    split; [intros H; left; split; [reflexivity | exact H]|].
    intros [[_ H] | [H _]]; [exact H | discriminate].
  - destruct (json_loads json_code) eqn:J; cbn.
    + split; [|repeat split; reflexivity].
      split; [intros _; right; split; reflexivity|]. intros _. exact J.
    + split; [|split; [intros H; congruence | repeat split; reflexivity]].
      split; [intros H; congruence|].
      intros [[H _] | [_ H]]; discriminate.
Qed.

(** X22: the text built by lines 164-172 is exactly the lines of the
    turns whose role is [user] or [assistant], in input order, followed
    by the history block when the cached memory is a non-empty string;
    turns of any other role leave no trace in it. *)
Theorem build_msgStr_eq (msgs : list Message) (memory : option string) :
  build_msgStr msgs memory =
    PyStr.concat (map turn_line (List.filter is_dialogue msgs))
    +:+ history_block memory
  /\ build_msgStr (List.filter is_dialogue msgs) memory =
     build_msgStr msgs memory.
Proof.
  assert (Heq : forall ms,
    build_msgStr ms memory =
    PyStr.concat (map turn_line (List.filter is_dialogue ms))
    +:+ history_block memory).
  { intros ms. unfold build_msgStr. rewrite fold_add_turn.
    change (EmptyString +:+ ?x) with x.
    destruct memory as [[|c m]|];
      cbn [has_history PyStr.truthy andb history_block py_str].
    - now rewrite append_empty_r.
    - change (0 <? Z.of_nat (String.length (String c m))) with true.
      cbn iota. now rewrite !append_assoc.
    - now rewrite append_empty_r. }
  split; [apply Heq|]. now rewrite !Heq, filter_idempotent.
Qed.

End Properties.

(** ** The properties on concrete inputs *)

#[local] Existing Instance Sample.env.

(** A transcript of one turn is not summarised. *)
Lemma save_memory_few_turns_witness :
  fst (save_memory [Sample.user_says "hi"]
         (Sample.structured Sample.json_doc)) = None.
Proof.
  apply (save_memory_few_turns [Sample.user_says "hi"]
           (Sample.structured Sample.json_doc)).
  cbn. lia.
Defined.


(** C2, on a concrete call: the LLM of a structured instance for role
    [A] would answer a fenced block of valid JSON, and the transcript
    has two turns; the call returns [None], sends no request, and leaves
    the cache at [old] and the entry of [A] in the file as it was. *)
Lemma fenced_json_answer_not_stored :
  let st := Sample.structured Sample.fenced_answer in
  let st' := snd (save_memory Sample.greeting st) in
  json_loads (fence_body Sample.fenced_answer) = Loaded
  /\ fst (save_memory Sample.greeting st) = None
  /\ llm_calls (world st') = []
  /\ short_memory (self st') = Some "old"
  /\ document (world st') !! Some "A" = Some (Some "memory of A").
Proof.
  vm_compute. repeat split; reflexivity.
Qed.

(** C3, on a concrete call: for two dialogue turns and the cached
    memory [old], lines 164-172 build the dialogue lines and the history
    block; the body ends before the time stamp is appended, no request
    is sent and the call returns [None]. *)
Lemma prompt_built_but_never_sent :
  let st := Sample.structured Sample.fenced_answer in
  let st' := snd (save_memory Sample.greeting st) in
  build_msgStr Sample.greeting (short_memory (self st)) =
    "User: hi" +:+ PyStr.LF +:+ "Assistant: hello" +:+ PyStr.LF
    +:+ "History Memory:" +:+ PyStr.LF +:+ "old"
  /\ llm_calls (world st') = []
  /\ fst (save_memory Sample.greeting st) = None.
Proof.
  vm_compute. repeat split; reflexivity.
Qed.

(** C5, on a concrete call: in content-only mode, with an LLM bound
    and two turns, nothing is handed to the remote save API, no request
    is sent, and the call returns [None], not the cached value [old]. *)
Lemma content_only_answer_not_handed_over :
  let st := Sample.content_only "Alex likes tea." in
  let st' := snd (save_memory Sample.greeting st) in
  remote_saves (world st') = []
  /\ llm_calls (world st') = []
  /\ short_memory (self st') = Some "old"
  /\ fst (save_memory Sample.greeting st) = None
  /\ fst (save_memory Sample.greeting st) <> short_memory (self st).
Proof.
  vm_compute. repeat split; try reflexivity; discriminate.
Qed.

(** C8, on a concrete call: the key of the bound LLM is the placeholder
    of the configuration template; the problem is logged as an error
    after the debug entry, and then no request is sent, nothing is
    written and the call returns [None]. *)
Lemma malformed_credential_logged_then_nothing :
  let st := Sample.misconfigured Sample.fenced_answer in
  let st' := snd (save_memory Sample.greeting st) in
  log (world st') =
    [(DEBUG, "使用记忆保存模型: demo-model");
     (ERROR, Sample.placeholder_problem)]
  /\ llm_calls (world st') = []
  /\ file (world st') = file (world st)
  /\ short_memory (self st') = Some "old"
  /\ fst (save_memory Sample.greeting st) = None.
Proof.
  vm_compute. repeat split; reflexivity.
Qed.

(** C10, on a concrete call: two turns of role [system] pass the test
    of the two-turn minimum and add no line to the text of lines
    164-172, which is the history block alone; but no request is sent,
    the file is not written and the call returns [None]. *)
Lemma silent_transcript_sends_nothing :
  let st := Sample.structured Sample.fenced_answer in
  let st' := snd (save_memory Sample.silent st) in
  (2 <= length Sample.silent)%nat
  /\ build_msgStr Sample.silent (short_memory (self st)) =
       "History Memory:" +:+ PyStr.LF +:+ "old"
  /\ llm_calls (world st') = []
  /\ file (world st') = file (world st)
  /\ fst (save_memory Sample.silent st) = None.
Proof.
  split; [cbn; lia|]. vm_compute. repeat split; reflexivity.
Qed.

(** Without an LLM nothing is sent and the error is logged. *)
Lemma save_memory_without_llm_witness :
  fst (save_memory Sample.greeting Sample.unbound) = None
  /\ In (ERROR, "LLM is not set for memory provider")
       (log (world (snd (save_memory Sample.greeting Sample.unbound)))).
Proof.
  destruct (save_memory_without_llm Sample.greeting Sample.unbound)
    as (Hret & _ & _ & _ & _ & _ & Hlog).
  - reflexivity.
  - split; [exact Hret|]. rewrite Hlog.
    apply in_or_app. right. apply in_or_app. right. left. reflexivity.
Defined.

(** A JSON string that holds both delimiters is valid as it stands, but
    what [extract_json_data] takes from it is not. *)
Lemma extract_json_data_accepted_iff_witness :
  let st := Sample.structured Sample.json_with_fence in
  json_loads Sample.json_with_fence = Loaded
  /\ json_loads (fst (extract_json_data Sample.json_with_fence st)) <> Loaded.
Proof.
  intros st. split; [vm_compute; reflexivity|].
  destruct (extract_json_data_accepted_iff Sample.json_with_fence st)
    as ((Honly & _) & _).
  - vm_compute. discriminate.
  - intros H. apply Honly in H.
    destruct H as [[_ H] | [H _]]; vm_compute in H; discriminate.
Defined.

(** C7, counterexample: an instance whose cache was set at its first
    initialisation is initialised again, file-backed and without
    supplied content, for a role the file has no entry for: the cache is
    not at its default empty value, it still holds the old content. *)
Lemma reinit_keeps_previous_cache :
  let st := Sample.initialised_for_A in
  let st' :=
    snd (init_memory (Some "B")
           (Some (Sample.llm_answering (Some "sk-1") Sample.json_doc))
           None true st) in
  document (world st) !! Some "B" = None
  /\ short_memory (self st') = Some "supplied memory of A"
  /\ short_memory (self st') <> Some EmptyString.
Proof.
  vm_compute. repeat split; try reflexivity; discriminate.
Defined.

(** Initialisation from the file: an entry is loaded, and without an
    entry the cache keeps its value. *)
Lemma load_memory_cases_witness :
  let st := Sample.structured Sample.json_doc in
  let llm0 := Some (Sample.llm_answering (Some "sk-1") Sample.json_doc) in
  short_memory (self (snd (init_memory (Some "B") llm0 None true st)))
    = Some "memory of B"
  /\ short_memory (self (snd (init_memory (Some "C") llm0 None true st)))
     = Some "old"
  /\ short_memory (self (snd (init_memory (Some "C") llm0 (Some "given") true st)))
     = Some "given".
Proof.
  intros st llm0.
  destruct (load_memory_cases st (Some "B") llm0 None true)
    as (_ & HfileB & _).
  destruct (load_memory_cases st (Some "C") llm0 None true)
    as (_ & HfileC & _).
  destruct (load_memory_cases st (Some "C") llm0 (Some "given") true)
    as (Hgiven & _).
  destruct (HfileB eq_refl eq_refl) as (_ & Hpresent & _).
  destruct (HfileC eq_refl eq_refl) as (_ & _ & Habsent).
  split; [apply Hpresent; vm_compute; reflexivity|].
  split; [apply Habsent; vm_compute; reflexivity|].
  apply Hgiven. left. reflexivity.
Defined.

(** Initialising for a role the file knows puts the cache in step. *)
Lemma init_memory_in_step_witness :
  in_step (snd (init_memory (Some "B") None None true
                  (Sample.structured Sample.json_doc))).
Proof.
  apply (init_memory_in_step (Sample.structured Sample.json_doc)
           (Some "B") None None).
  - reflexivity.
  - eexists. vm_compute. reflexivity.
Defined.

(** The block of an answer with two fenced blocks ends at the first
    closing delimiter. *)
Lemma fence_body_without_fence_witness :
  let answer := "```json[1]``` and ```json[2]```" in
  fence_body answer = "[1]"
  /\ PyStr.find (fence_body answer) "```" 0 = -1.
Proof.
  intros answer. split; [vm_compute; reflexivity|].
  apply (fence_body_without_fence answer). vm_compute. reflexivity.
Defined.

(** The delimiters of a fenced answer and the slice between them. *)
Lemma fenced_bounds_witness :
  fence_start Sample.fenced_answer = 6
  /\ fence_end Sample.fenced_answer = 29
  /\ fence_start Sample.fenced_answer + 7 <= fence_end Sample.fenced_answer.
Proof.
  split; [vm_compute; reflexivity|]. split; [vm_compute; reflexivity|].
  apply (fenced_bounds Sample.fenced_answer). vm_compute. reflexivity.
Defined.
